(** * HoverExample: the drag-and-drop panel of [src/App.tsx]

    A shallow embedding of the [HoverExample] function component (the
    two draggable sources, the drop zone, the [dragOver] state cell and
    the five event callbacks) together with the small part of the host
    platform the callbacks talk to: the [DataTransfer] store of a drag
    session, the [preventDefault] flag of an event and the console. *)

From Stdlib Require Import Ascii String.
From stdpp Require Import gmap strings list.

Open Scope string_scope.
Open Scope list_scope.

(** ** Host objects used by the callbacks *)

(** [event.dataTransfer]: the store of a drag, from data kinds to strings.
    Both operations first bring the format they are given to the kind it
    names: ASCII lowercase, then ["text"] stands for ["text/plain"] and
    ["url"] for ["text/uri-list"].  [setData] overwrites the entry of that
    kind; [getData] of a kind that holds nothing is the empty string, and
    asked for ["url"] it answers with the first URL of the list.  The
    callbacks write only at drag-start and read only at drop, when the
    store allows it. *)
Module DataTransfer.

Definition lower_ascii (c : ascii) : ascii :=
  let n := nat_of_ascii c in
  if ((65 <=? n) && (n <=? 90))%nat then ascii_of_nat (n + 32) else c.

Fixpoint lowercase (s : string) : string :=
  match s with
  | EmptyString => EmptyString
  | String c rest => String (lower_ascii c) (lowercase rest)
  end.

(** The kind a format names. *)
Definition kind_of (format : string) : string :=
  let f := lowercase format in
  if decide (f = "text") then "text/plain"
  else if decide (f = "url") then "text/uri-list"
  else f.

(** The lines of a [text/uri-list], cut at every CR and LF. *)
Fixpoint lines (s : string) : list string :=
  match s with
  | EmptyString => [EmptyString]
  | String c rest =>
      if decide (nat_of_ascii c = 10 \/ nat_of_ascii c = 13)
      then EmptyString :: lines rest
      else match lines rest with
           | l :: ls => String c l :: ls
           | [] => [String c EmptyString]
           end
  end.

Definition is_uri_line (l : string) : bool :=
  match l with
  | EmptyString => false
  | String c _ => negb (bool_decide (nat_of_ascii c = 35))
  end.

(** The first line that is neither empty nor a [#] comment. *)
Definition first_url (s : string) : string :=
  default "" (head (List.filter is_uri_line (lines s))).

Definition setData (format data : string) (dt : gmap string string)
  : gmap string string :=
  <[kind_of format := data]> dt.

Definition getData (format : string) (dt : gmap string string) : string :=
  let result := default "" (dt !! kind_of format) in
  if decide (lowercase format = "url") then first_url result else result.

End DataTransfer.

(** A [React.DragEvent<HTMLDivElement>], reduced to what the callbacks
    touch: [event.currentTarget.id], [event.dataTransfer] and the flag
    that [event.preventDefault()] raises. *)
Record DragEvent := mkDragEvent {
  currentTarget_id : string;
  dataTransfer : gmap string string;
  defaultPrevented : bool
}.

Definition preventDefault (event : DragEvent) : DragEvent :=
  {| currentTarget_id := currentTarget_id event;
     dataTransfer := dataTransfer event;
     defaultPrevented := true |}.

Definition withDataTransfer (dt : gmap string string) (event : DragEvent)
  : DragEvent :=
  {| currentTarget_id := currentTarget_id event;
     dataTransfer := dt;
     defaultPrevented := defaultPrevented event |}.

(** What outlives a callback: the [dragOver] cell created by
    [React.useState(false)] and the lines written with [console.log],
    oldest first. *)
Record Heap := mkHeap {
  dragOver : bool;
  console : list string
}.

Definition setDragOver (value : bool) (h : Heap) : Heap :=
  {| dragOver := value; console := console h |}.

Definition console_log (line : string) (h : Heap) : Heap :=
  {| dragOver := dragOver h; console := console h ++ [line] |}.

(** A callback receives the event object and may mutate it and the heap. *)
Definition Handler : Type := DragEvent -> Heap -> DragEvent * Heap.

(** ** The callbacks of [HoverExample] *)

(** [const handleDragOverStart = () => setDragOver(true);] *)
Definition handleDragOverStart (h : Heap) : Heap := setDragOver true h.

(** [const handleDragOverEnd = () => setDragOver(false);] *)
Definition handleDragOverEnd (h : Heap) : Heap := setDragOver false h.

(** [event.dataTransfer.setData('text', event.currentTarget.id);] *)
Definition handleDragStart : Handler := fun event h =>
  (withDataTransfer
     (DataTransfer.setData "text" (currentTarget_id event) (dataTransfer event))
     event,
   h).

(** [event.preventDefault();] *)
Definition enableDropping : Handler := fun event h =>
  (preventDefault event, h).

(** [const id = event.dataTransfer.getData('text');]
    [console.log(`Somebody dropped an element with id: ${id}`);]
    [setDragOver(false);] *)
Definition handleDrop : Handler := fun event h =>
  let id := DataTransfer.getData "text" (dataTransfer event) in
  let h1 := console_log ("Somebody dropped an element with id: " +:+ id) h in
  (event, setDragOver false h1).

(** A callback written without parameters ignores the event it is given. *)
Definition ignoring_event (f : Heap -> Heap) : Handler := fun event h =>
  (event, f h).

(** ** The rendered markup *)

Module Props.

(** The attributes a [<div>] of the panel can carry. *)
Record t := mk {
  id : string;
  draggable : bool;
  onDragStart : option Handler;
  onDragOver : option Handler;
  onDrop : option Handler;
  onDragEnter : option Handler;
  onDragLeave : option Handler;
  style : list (string * string);
  children : string
}.

End Props.

(** The three inner [<div>]s that [HoverExample] returns, in document
    order, for the current value of the [dragOver] cell. *)
Definition HoverExample (dragOver : bool) : list Props.t :=
  [ {| Props.id := "d1"; Props.draggable := true;
       Props.onDragStart := Some handleDragStart;
       Props.onDragOver := None; Props.onDrop := None;
       Props.onDragEnter := None; Props.onDragLeave := None;
       Props.style := []; Props.children := "Drag me" |};
    {| Props.id := "d2"; Props.draggable := true;
       Props.onDragStart := Some handleDragStart;
       Props.onDragOver := None; Props.onDrop := None;
       Props.onDragEnter := None; Props.onDragLeave := None;
       Props.style := []; Props.children := "... Or me!" |};
    {| Props.id := ""; Props.draggable := false;
       Props.onDragStart := None;
       Props.onDragOver := Some enableDropping;
       Props.onDrop := Some handleDrop;
       Props.onDragEnter := Some (ignoring_event handleDragOverStart);
       Props.onDragLeave := Some (ignoring_event handleDragOverEnd);
       Props.style :=
         if dragOver
         then [("fontWeight", "bold"); ("background", "red")]
         else [];
       Props.children := "Drop Zone" |} ].

(** Positions of the three elements in the markup. *)
Definition source_d1 : nat := 0.
Definition source_d2 : nat := 1.
Definition drop_zone : nat := 2.

(** ** Event delivery *)

Inductive EventType :=
  | DragStart | DragOver | DragEnter | DragLeave | Drop.

#[global] Instance EventType_eq_dec : EqDecision EventType.
Proof. solve_decision. Defined.

Definition listener (type : EventType) (el : Props.t) : option Handler :=
  match type with
  | DragStart => Props.onDragStart el
  | DragOver => Props.onDragOver el
  | DragEnter => Props.onDragEnter el
  | DragLeave => Props.onDragLeave el
  | Drop => Props.onDrop el
  end.

(** The mounted panel: its heap and the [DataTransfer] object of the
    drag session, which every event of the session carries. *)
Record Page := mkPage {
  heap : Heap;
  session : gmap string string
}.

(** On mount the cell holds [useState]'s argument and nothing is logged. *)
Definition mount : Page :=
  {| heap := {| dragOver := false; console := [] |}; session := ∅ |}.

(** Delivering an event of kind [type] to the element at position
    [target]: the listener attached in the current render, if any, runs
    on a fresh event object that shares the session's store.  The result
    is the event object as the listener left it and the new page. *)
Definition dispatch (type : EventType) (target : nat) (p : Page)
  : option (DragEvent * Page) :=
  el ← HoverExample (dragOver (heap p)) !! target;
  handler ← listener type el;
  let event := {| currentTarget_id := Props.id el;
                  dataTransfer := session p;
                  defaultPrevented := false |} in
  let '(event', h') := handler event (heap p) in
  Some (event', {| heap := h'; session := dataTransfer event' |}).

(** An event nobody listens to leaves the page as it is. *)
Definition fire (type : EventType) (target : nat) (p : Page) : Page :=
  from_option snd p (dispatch type target p).

(** A run of events that all carry the page's store: what a drag-start
    on a source wrote is what a later drop reads.  A drag that began
    outside the panel (a selection, a file) is a page whose store already
    holds that drag's data. *)
Fixpoint run (p : Page) (events : list (EventType * nat)) : Page :=
  match events with
  | [] => p
  | (type, target) :: rest => run (fire type target p) rest
  end.

(** Events of the given kinds, all delivered to the drop zone. *)
Definition on_drop_zone (kinds : list EventType) : list (EventType * nat) :=
  (fun k => (k, drop_zone)) <$> kinds.

(** The style the drop zone is rendered with. *)
Definition drop_zone_style (markup : list Props.t)
  : option (list (string * string)) :=
  Props.style <$> markup !! drop_zone.

Definition view (p : Page) : list Props.t :=
  HoverExample (dragOver (heap p)).

(** ** The two-state reading of the hover flag *)

Inductive HoverState := Idle | Hovering.

Definition state_of (p : Page) : HoverState :=
  if dragOver (heap p) then Hovering else Idle.

(** The machine as the specification words it: drag-enter leads to
    [Hovering], drag-leave and drop lead to [Idle]; the other event kinds
    are not transitions of the machine. *)
Definition spec_transition (s : HoverState) (type : EventType) : HoverState :=
  match type with
  | DragEnter => Hovering
  | DragLeave | Drop => Idle
  | DragStart | DragOver => s
  end.

(** Drag-enter and drag-leave, the two kinds that only move the flag. *)
Definition is_hover_kind (type : EventType) : Prop :=
  type = DragEnter \/ type = DragLeave.

(** Kinds that may occur strictly inside a drag session, between its
    drag-start and its drop. *)
Definition is_inner_kind (type : EventType) : Prop :=
  type <> DragStart /\ type <> Drop.

(** The line [handleDrop] logs for an identifier. *)
Definition drop_line (id : string) : string :=
  "Somebody dropped an element with id: " +:+ id.

(** ** Observing a run *)

(** Events whose listener calls [setDragOver]: drag-enter, drag-leave and
    drop, delivered to the drop zone. *)
Definition writes_flag (e : EventType * nat) : bool :=
  match e with
  | (DragEnter, 2) | (DragLeave, 2) | (Drop, 2) => true
  | _ => false
  end.

(** Events whose listener calls [console.log]: a drop on the drop zone. *)
Definition logs_line (e : EventType * nat) : bool :=
  match e with
  | (Drop, 2) => true
  | _ => false
  end.

(** Events some element of the panel listens to: a drag-start on one of
    the two sources, anything but a drag-start on the drop zone. *)
Definition is_heard (type : EventType) (target : nat) : Prop :=
  (type = DragStart /\ (target = source_d1 \/ target = source_d2))
  \/ (type <> DragStart /\ target = drop_zone).

(** ** The minimal panel (Example 1 of the README) *)

Module Minimal.

(** [const id = event.dataTransfer.getData('text');]
    [console.log(`Somebody dropped an element with id: ${id}`);] *)
Definition handleDrop : Handler := fun event h =>
  let id := DataTransfer.getData "text" (dataTransfer event) in
  (event, console_log ("Somebody dropped an element with id: " +:+ id) h).

End Minimal.

(** The three inner [<div>]s of the minimal example, whose [handleDragStart]
    and [enableDropping] read as the ones of [HoverExample]. *)
Definition MinimalExample : list Props.t :=
  [ {| Props.id := "d1"; Props.draggable := true;
       Props.onDragStart := Some handleDragStart;
       Props.onDragOver := None; Props.onDrop := None;
       Props.onDragEnter := None; Props.onDragLeave := None;
       Props.style := []; Props.children := "Drag me" |};
    {| Props.id := "d2"; Props.draggable := true;
       Props.onDragStart := Some handleDragStart;
       Props.onDragOver := None; Props.onDrop := None;
       Props.onDragEnter := None; Props.onDragLeave := None;
       Props.style := []; Props.children := "Or me!" |};
    {| Props.id := ""; Props.draggable := false;
       Props.onDragStart := None;
       Props.onDragOver := Some enableDropping;
       Props.onDrop := Some Minimal.handleDrop;
       Props.onDragEnter := None; Props.onDragLeave := None;
       Props.style := []; Props.children := "Drop Area" |} ].

(** Delivery to an element of a given markup; [dispatch] is this with the
    markup of [HoverExample]. *)
Definition deliver (markup : list Props.t) (type : EventType) (target : nat)
    (p : Page) : option (DragEvent * Page) :=
  el ← markup !! target;
  handler ← listener type el;
  let event := {| currentTarget_id := Props.id el;
                  dataTransfer := session p;
                  defaultPrevented := false |} in
  let '(event', h') := handler event (heap p) in
  Some (event', {| heap := h'; session := dataTransfer event' |}).

Definition minimal_fire (type : EventType) (target : nat) (p : Page) : Page :=
  from_option snd p (deliver MinimalExample type target p).

Fixpoint minimal_run (p : Page) (events : list (EventType * nat)) : Page :=
  match events with
  | [] => p
  | (type, target) :: rest => minimal_run (minimal_fire type target p) rest
  end.

(** ** The page shell *)

(** A child of [<div className="App">]: a heading or one of the panels. *)
Inductive AppChild :=
  | Heading (text : string)
  | Panel (divs : list Props.t).

(** What [App] returns; the only state below it is the [dragOver] cell of
    [HoverExample]. *)
Definition App (dragOver : bool) : list AppChild :=
  [ Heading "Minimal Example";
    Panel MinimalExample;
    Heading "Hover Example";
    Panel (HoverExample dragOver) ].

Definition minimal_panel : nat := 1.
Definition hover_panel : nat := 3.

Definition panel_divs (c : AppChild) : list Props.t :=
  match c with
  | Heading _ => []
  | Panel divs => divs
  end.

(** An element of the page: the child of [App] and the position in it. *)
Definition Address : Type := nat * nat.

Definition app_dispatch (type : EventType) (at_ : Address) (p : Page)
  : option (DragEvent * Page) :=
  c ← App (dragOver (heap p)) !! fst at_;
  deliver (panel_divs c) type (snd at_) p.

Definition app_fire (type : EventType) (at_ : Address) (p : Page) : Page :=
  from_option snd p (app_dispatch type at_ p).

Fixpoint app_run (p : Page) (events : list (EventType * Address)) : Page :=
  match events with
  | [] => p
  | (type, at_) :: rest => app_run (app_fire type at_ p) rest
  end.

(** The events of a run of the hover panel, addressed inside the page. *)
Definition in_hover_panel (events : list (EventType * nat))
  : list (EventType * Address) :=
  (fun e => (fst e, (hover_panel, snd e))) <$> events.

(** ** What the callbacks ask of the transfer store *)

Lemma setData_text (data : string) (dt : gmap string string) :
  DataTransfer.setData "text" data dt = <["text/plain" := data]> dt.
Proof. reflexivity. Qed.

Lemma getData_text (dt : gmap string string) :
  DataTransfer.getData "text" dt = default "" (dt !! "text/plain").
Proof. reflexivity. Qed.

Lemma getData_setData_text (data : string) (dt : gmap string string) :
  DataTransfer.getData "text" (DataTransfer.setData "text" data dt) = data.
Proof. rewrite getData_text, setData_text, lookup_insert_eq. reflexivity. Qed.

(** ** Delivery, one event at a time *)

Section Delivery.

Variable p : Page.

Lemma fire_DragEnter_zone :
  fire DragEnter drop_zone p
  = {| heap := handleDragOverStart (heap p); session := session p |}.
Proof. destruct p as [[[] c] s]; reflexivity. Qed.

Lemma fire_DragLeave_zone :
  fire DragLeave drop_zone p
  = {| heap := handleDragOverEnd (heap p); session := session p |}.
Proof. destruct p as [[[] c] s]; reflexivity. Qed.

Lemma fire_Drop_zone :
  fire Drop drop_zone p
  = {| heap := setDragOver false
                 (console_log
                    (drop_line (DataTransfer.getData "text" (session p)))
                    (heap p));
       session := session p |}.
Proof. destruct p as [[[] c] s]; reflexivity. Qed.

Lemma dispatch_Drop_zone :
  dispatch Drop drop_zone p
  = Some ({| currentTarget_id := ""; dataTransfer := session p;
             defaultPrevented := false |},
          {| heap := setDragOver false
                       (console_log
                          (drop_line (DataTransfer.getData "text" (session p)))
                          (heap p));
             session := session p |}).
Proof. destruct p as [[[] c] s]; reflexivity. Qed.

Lemma fire_DragOver_zone : fire DragOver drop_zone p = p.
Proof. destruct p as [[[] c] s]; reflexivity. Qed.

Lemma fire_DragStart_d1 :
  fire DragStart source_d1 p
  = {| heap := heap p; session := DataTransfer.setData "text" "d1" (session p) |}.
Proof. destruct p as [[[] c] s]; reflexivity. Qed.

Lemma fire_DragStart_d2 :
  fire DragStart source_d2 p
  = {| heap := heap p; session := DataTransfer.setData "text" "d2" (session p) |}.
Proof. destruct p as [[[] c] s]; reflexivity. Qed.

(** Only a drag-start can change the session's store. *)
Lemma fire_session type target :
  type <> DragStart -> session (fire type target p) = session p.
Proof.
  intros Hty. destruct p as [[b c] s].
  destruct target as [|[|[|n]]], type, b; try reflexivity; congruence.
Qed.

(** Only a drop can write to the console. *)
Lemma fire_console type target :
  type <> Drop -> console (heap (fire type target p)) = console (heap p).
Proof.
  intros Hty. destruct p as [[b c] s].
  destruct target as [|[|[|n]]], type, b; try reflexivity; congruence.
Qed.

End Delivery.

Lemma run_app p es1 es2 : run p (es1 ++ es2) = run (run p es1) es2.
Proof.
  revert p. induction es1 as [|[type target] es1 IH]; intros p; simpl.
  - reflexivity.
  - apply IH.
Qed.

Lemma run_snoc p es type target :
  run p (es ++ [(type, target)]) = fire type target (run p es).
Proof. rewrite run_app. reflexivity. Qed.

Lemma on_drop_zone_snoc kinds k :
  on_drop_zone (kinds ++ [k]) = on_drop_zone kinds ++ [(k, drop_zone)].
Proof. unfold on_drop_zone. rewrite fmap_app. reflexivity. Qed.

(** Inside a session the store and the console stay as the drag-start
    left them. *)
Lemma run_inner es :
  Forall (fun e => is_inner_kind (fst e)) es ->
  forall p,
    session (run p es) = session p
    /\ console (heap (run p es)) = console (heap p).
Proof.
  induction 1 as [|[type target] es [Hs Hd] _ IH]; intros p; simpl.
  - split; reflexivity.
  - destruct (IH (fire type target p)) as [-> ->].
    split; [apply fire_session | apply fire_console]; assumption.
Qed.

(** After a hover event on the drop zone the flag tells which it was. *)
Lemma fire_hover_kind p k :
  is_hover_kind k ->
  (dragOver (heap (fire k drop_zone p)) = true <-> k = DragEnter).
Proof.
  intros [-> | ->].
  - rewrite fire_DragEnter_zone. simpl. tauto.
  - rewrite fire_DragLeave_zone. simpl. split; discriminate.
Qed.

(** ** The hover flag *)

(** C1: for every sequence of drag-enter and drag-leave events on the drop
    zone (no drop among them), the hover flag is true exactly when the most
    recent of them was a drag-enter.  From mount this holds for every such
    sequence, the empty one included; from any other page it holds as soon
    as one event has been delivered, whatever came before: nothing is
    counted. *)
Theorem hover_flag_follows_last_event :
  (forall kinds : list EventType,
     Forall is_hover_kind kinds ->
     (dragOver (heap (run mount (on_drop_zone kinds))) = true
      <-> last kinds = Some DragEnter))
  /\ (forall (p : Page) (kinds : list EventType) (k : EventType),
        Forall is_hover_kind (kinds ++ [k]) ->
        (dragOver (heap (run p (on_drop_zone (kinds ++ [k])))) = true
         <-> k = DragEnter)).
Proof.
  assert (Hsnoc : forall (p : Page) kinds k,
             Forall is_hover_kind (kinds ++ [k]) ->
             (dragOver (heap (run p (on_drop_zone (kinds ++ [k])))) = true
              <-> k = DragEnter)).
  { intros p kinds k Hall.
    rewrite Forall_app, Forall_singleton in Hall. destruct Hall as [_ Hk].
    rewrite on_drop_zone_snoc, run_snoc. apply fire_hover_kind, Hk. }
  split; [|exact Hsnoc].
  intros kinds Hall.
  destruct kinds as [|k kinds _] using rev_ind.
  - simpl. split; discriminate.
  - rewrite last_snoc, (Hsnoc mount kinds k Hall).
    split; [intros ->; reflexivity | congruence].
Qed.

Lemma hover_flag_follows_last_event_witness :
  Forall is_hover_kind [DragEnter; DragEnter; DragLeave]
  /\ (dragOver (heap (run mount
        (on_drop_zone [DragEnter; DragEnter; DragLeave]))) = true
      <-> last [DragEnter; DragEnter; DragLeave] = Some DragEnter)
  /\ (dragOver (heap (run (fire DragEnter drop_zone mount)
        (on_drop_zone ([DragLeave; DragLeave] ++ [DragEnter])))) = true
      <-> DragEnter = DragEnter).
Proof.
  assert (H1 : Forall is_hover_kind [DragEnter; DragEnter; DragLeave]).
  { repeat constructor; unfold is_hover_kind; tauto. }
  assert (H2 : Forall is_hover_kind ([DragLeave; DragLeave] ++ [DragEnter])).
  { repeat constructor; unfold is_hover_kind; tauto. }
  split; [exact H1|]. split.
  - exact (proj1 hover_flag_follows_last_event _ H1).
  - exact (proj2 hover_flag_follows_last_event _ _ _ H2).
Defined.

(** C2: whatever the hover flag was, [handleDrop] leaves it false, both
    as a callback on any event and heap and as a drop delivered to the
    drop zone of any page. *)
Theorem handleDrop_resets_flag :
  (forall (event : DragEvent) (h : Heap),
     dragOver (snd (handleDrop event h)) = false)
  /\ (forall p : Page, dragOver (heap (fire Drop drop_zone p)) = false).
Proof.
  split.
  - intros event h. reflexivity.
  - intros p. rewrite fire_Drop_zone. reflexivity.
Qed.

(** ** A drag session, from drag-start to drop *)

(** C3: a session that begins with a drag-start on the source "d1"
    (resp. "d2") and ends with a drop on the drop zone, with any hover
    traffic in between, logs exactly one line,
    [Somebody dropped an element with id: d1] (resp. [... d2]). *)
Theorem drop_logs_dragged_id (inner : list (EventType * nat)) :
  Forall (fun e => is_inner_kind (fst e)) inner ->
  console (heap (run mount
    ((DragStart, source_d1) :: inner ++ [(Drop, drop_zone)])))
  = ["Somebody dropped an element with id: d1"]
  /\ console (heap (run mount
       ((DragStart, source_d2) :: inner ++ [(Drop, drop_zone)])))
     = ["Somebody dropped an element with id: d2"].
Proof.
  intros Hinner. split.
  - change (run mount ((DragStart, source_d1) :: inner ++ [(Drop, drop_zone)]))
      with (run (fire DragStart source_d1 mount) (inner ++ [(Drop, drop_zone)])).
    rewrite run_snoc, fire_Drop_zone.
    destruct (run_inner inner Hinner (fire DragStart source_d1 mount))
      as [Hs Hc].
    simpl. rewrite Hs, Hc. reflexivity.
  - change (run mount ((DragStart, source_d2) :: inner ++ [(Drop, drop_zone)]))
      with (run (fire DragStart source_d2 mount) (inner ++ [(Drop, drop_zone)])).
    rewrite run_snoc, fire_Drop_zone.
    destruct (run_inner inner Hinner (fire DragStart source_d2 mount))
      as [Hs Hc].
    simpl. rewrite Hs, Hc. reflexivity.
Qed.

Lemma drop_logs_dragged_id_witness :
  console (heap (run mount
    [(DragStart, source_d1); (DragEnter, drop_zone); (DragOver, drop_zone);
     (DragOver, drop_zone); (Drop, drop_zone)]))
  = ["Somebody dropped an element with id: d1"]
  /\ console (heap (run mount
       [(DragStart, source_d2); (DragEnter, drop_zone); (DragOver, drop_zone);
        (DragOver, drop_zone); (Drop, drop_zone)]))
     = ["Somebody dropped an element with id: d2"].
Proof.
  apply (drop_logs_dragged_id
           [(DragEnter, drop_zone); (DragOver, drop_zone);
            (DragOver, drop_zone)]).
  repeat constructor; simpl; discriminate.
Defined.

(** C4: [enableDropping] raises the event's default-prevented flag on
    every event it is given, whatever the event and the heap; it is the
    drag-over listener of the drop zone in every render, so every
    drag-over delivered there comes back with its default suppressed. *)
Theorem enableDropping_prevents_default :
  (forall (event : DragEvent) (h : Heap),
     defaultPrevented (fst (enableDropping event h)) = true)
  /\ (forall p : Page,
        exists event p',
          dispatch DragOver drop_zone p = Some (event, p')
          /\ defaultPrevented event = true).
Proof.
  split.
  - intros event h. reflexivity.
  - intros [[b c] s]. destruct b; eexists _, _; split; reflexivity.
Qed.

(** C5: [handleDragStart] stores the identifier of the element the event
    is delivered to under the plain-text kind of the transfer store, the
    kind the format ['text'] names, for every identifier (the empty one
    included: nothing is validated), so that reading ['text'] back gives
    that identifier.  It does nothing else: the other kinds of the store,
    the rest of the event and the heap are as before.  Delivered to the two
    sources, the stored identifiers are "d1" and "d2". *)
Theorem handleDragStart_stores_id :
  (forall (event : DragEvent) (h : Heap),
     let event' := fst (handleDragStart event h) in
     dataTransfer event' !! "text/plain" = Some (currentTarget_id event)
     /\ DataTransfer.getData "text" (dataTransfer event')
        = currentTarget_id event
     /\ (forall kind : string,
           kind <> "text/plain" ->
           dataTransfer event' !! kind = dataTransfer event !! kind)
     /\ currentTarget_id event' = currentTarget_id event
     /\ defaultPrevented event' = defaultPrevented event
     /\ snd (handleDragStart event h) = h)
  /\ (forall p : Page,
        fire DragStart source_d1 p
        = {| heap := heap p;
             session := <["text/plain" := "d1"]> (session p) |}
        /\ fire DragStart source_d2 p
           = {| heap := heap p;
                session := <["text/plain" := "d2"]> (session p) |}).
Proof.
  split.
  - intros event h. simpl. rewrite getData_setData_text, setData_text.
    split; [apply lookup_insert_eq|].
    split; [reflexivity|].
    split; [|auto].
    intros kind Hkind. apply lookup_insert_ne. congruence.
  - intros p. split.
    + rewrite fire_DragStart_d1, setData_text. reflexivity.
    + rewrite fire_DragStart_d2, setData_text. reflexivity.
Qed.

Lemma handleDragStart_stores_id_witness :
  let event := {| currentTarget_id := "d1";
                  dataTransfer := {["text/html" := "<b>x</b>"]};
                  defaultPrevented := false |} in
  let h := {| dragOver := true; console := ["earlier"] |} in
  "text/html" <> "text/plain"
  /\ dataTransfer (fst (handleDragStart event h)) !! "text/plain" = Some "d1"
  /\ DataTransfer.getData "text" (dataTransfer (fst (handleDragStart event h)))
     = "d1"
  /\ dataTransfer (fst (handleDragStart event h)) !! "text/html"
     = Some "<b>x</b>"
  /\ snd (handleDragStart event h) = h.
Proof.
  intros event h.
  assert (Hne : "text/html" <> "text/plain") by discriminate.
  destruct (proj1 handleDragStart_stores_id event h)
    as (Hget & Hread & Hframe & _ & _ & Hheap).
  split; [exact Hne|].
  split; [exact Hget|].
  split; [exact Hread|].
  split; [|exact Hheap].
  rewrite (Hframe "text/html" Hne). reflexivity.
Defined.

(** ** The drop zone as a state machine *)

(** C6: the drop zone is a two-state machine over the hover flag.  It is
    [Idle] on mount; a drag-enter leads to [Hovering], a drag-leave and a
    drop lead to [Idle], from either state; every page is in one of the two
    states; a whole run over the drop zone is the run of the specified
    machine; and no state is terminal: from every page each of the two
    states is one event away. *)
Theorem drop_zone_two_state_machine :
  state_of mount = Idle
  /\ (forall p : Page, state_of (fire DragEnter drop_zone p) = Hovering)
  /\ (forall p : Page, state_of (fire DragLeave drop_zone p) = Idle)
  /\ (forall p : Page, state_of (fire Drop drop_zone p) = Idle)
  /\ (forall p : Page, state_of p = Idle \/ state_of p = Hovering)
  /\ (forall (p : Page) (kinds : list EventType),
        state_of (run p (on_drop_zone kinds))
        = foldl spec_transition (state_of p) kinds)
  /\ (forall p : Page,
        exists k1 k2 : EventType,
          state_of (fire k1 drop_zone p) = Hovering
          /\ state_of (fire k2 drop_zone p) = Idle).
Proof.
  assert (Henter : forall p, state_of (fire DragEnter drop_zone p) = Hovering).
  { intros p. rewrite fire_DragEnter_zone. reflexivity. }
  assert (Hleave : forall p, state_of (fire DragLeave drop_zone p) = Idle).
  { intros p. rewrite fire_DragLeave_zone. reflexivity. }
  assert (Hdrop : forall p, state_of (fire Drop drop_zone p) = Idle).
  { intros p. rewrite fire_Drop_zone. reflexivity. }
  split; [reflexivity|].
  do 3 (split; [assumption|]).
  split; [|split].
  - intros p. unfold state_of. destruct (dragOver (heap p)); auto.
  - intros p kinds. revert p.
    induction kinds as [|k kinds IH]; intros p; simpl.
    + reflexivity.
    + rewrite IH. f_equal.
      destruct k; simpl; auto.
  - intros p. exists DragEnter, DragLeave. auto.
Qed.

(** C7: the drag-enter and drag-leave callbacks are idempotent.
    [handleDragOverStart] on a heap whose flag is already true, and
    [handleDragOverEnd] on one whose flag is already false, return the
    very same heap; each callback applied twice equals it applied once,
    also as events delivered to the drop zone. *)
Theorem hover_handlers_idempotent :
  (forall h : Heap, dragOver h = true -> handleDragOverStart h = h)
  /\ (forall h : Heap, dragOver h = false -> handleDragOverEnd h = h)
  /\ (forall h : Heap,
        handleDragOverStart (handleDragOverStart h) = handleDragOverStart h)
  /\ (forall h : Heap,
        handleDragOverEnd (handleDragOverEnd h) = handleDragOverEnd h)
  /\ (forall p : Page,
        fire DragEnter drop_zone (fire DragEnter drop_zone p)
        = fire DragEnter drop_zone p)
  /\ (forall p : Page,
        fire DragLeave drop_zone (fire DragLeave drop_zone p)
        = fire DragLeave drop_zone p).
Proof.
  split; [|split; [|split; [|split; [|split]]]].
  - intros [b c] Hb. simpl in Hb. subst b. reflexivity.
  - intros [b c] Hb. simpl in Hb. subst b. reflexivity.
  - intros h. reflexivity.
  - intros h. reflexivity.
  - intros p. rewrite !fire_DragEnter_zone. reflexivity.
  - intros p. rewrite !fire_DragLeave_zone. reflexivity.
Qed.

Lemma hover_handlers_idempotent_witness :
  let hovering := {| dragOver := true; console := ["earlier"] |} in
  let idle := {| dragOver := false; console := ["earlier"] |} in
  (dragOver hovering = true /\ handleDragOverStart hovering = hovering)
  /\ (dragOver idle = false /\ handleDragOverEnd idle = idle).
Proof.
  intros hovering idle.
  destruct hover_handlers_idempotent as (Hstart & Hend & _).
  split.
  - split; [reflexivity | apply Hstart; reflexivity].
  - split; [reflexivity | apply Hend; reflexivity].
Defined.

(** ** Rendering *)

(** C8: the style of the drop zone is a function of the hover flag alone:
    bold weight on a red background when the flag is true, the empty style
    when it is false; the two differ; and two pages with the same flag
    render the drop zone with the same style, whatever their consoles and
    transfer stores hold. *)
Theorem drop_zone_style_from_flag :
  (forall flag : bool,
     drop_zone_style (HoverExample flag)
     = Some (if flag
             then [("fontWeight", "bold"); ("background", "red")]
             else []))
  /\ drop_zone_style (HoverExample true) <> drop_zone_style (HoverExample false)
  /\ (forall p q : Page,
        dragOver (heap p) = dragOver (heap q) ->
        drop_zone_style (view p) = drop_zone_style (view q)).
Proof.
  split; [|split].
  - intros []; reflexivity.
  - discriminate.
  - intros p q Hflag. unfold view. rewrite Hflag. reflexivity.
Qed.

Lemma drop_zone_style_from_flag_witness :
  let p := fire DragEnter drop_zone mount in
  let q := run mount [(DragStart, source_d2); (Drop, drop_zone);
                      (DragEnter, drop_zone)] in
  dragOver (heap p) = dragOver (heap q)
  /\ p <> q
  /\ drop_zone_style (view p) = drop_zone_style (view q).
Proof.
  intros p q.
  assert (Hflag : dragOver (heap p) = dragOver (heap q)) by reflexivity.
  split; [exact Hflag|]. split.
  - intros Heq. apply (f_equal (fun x => console (heap x))) in Heq.
    discriminate Heq.
  - exact (proj2 (proj2 drop_zone_style_from_flag) p q Hflag).
Defined.

(** ** A drop without a transferred identifier *)

(** C9: when the transfer store holds nothing under the plain-text kind,
    the kind ['text'] names, [handleDrop] still returns: the identifier it
    reads is the empty string, the line it logs ends after the colon and
    the blank, and the hover flag is reset to false.  The same holds for a
    drop delivered to the drop zone of a page whose store holds no plain
    text: the listener runs and the event comes back. *)
Theorem handleDrop_absent_id :
  (forall (event : DragEvent) (h : Heap),
     dataTransfer event !! "text/plain" = None ->
     handleDrop event h
     = (event,
        {| dragOver := false;
           console :=
             console h ++ ["Somebody dropped an element with id: "] |}))
  /\ (forall p : Page,
        session p !! "text/plain" = None ->
        exists event : DragEvent,
          dispatch Drop drop_zone p
          = Some (event,
                  {| heap :=
                       {| dragOver := false;
                          console :=
                            console (heap p)
                            ++ ["Somebody dropped an element with id: "] |};
                     session := session p |})).
Proof.
  split.
  - intros event h Habsent.
    unfold handleDrop. rewrite getData_text, Habsent. reflexivity.
  - intros p Habsent. eexists.
    rewrite dispatch_Drop_zone, getData_text, Habsent. reflexivity.
Qed.

Lemma handleDrop_absent_id_witness :
  let event := {| currentTarget_id := "";
                  dataTransfer := {["text/uri-list" := "https://example.org"]};
                  defaultPrevented := false |} in
  let h := {| dragOver := true; console := [] |} in
  dataTransfer event !! "text/plain" = None
  /\ handleDrop event h
     = (event,
        {| dragOver := false;
           console := ["Somebody dropped an element with id: "] |})
  /\ session mount !! "text/plain" = None
  /\ exists event' : DragEvent,
       dispatch Drop drop_zone mount
       = Some (event',
               {| heap :=
                    {| dragOver := false;
                       console := ["Somebody dropped an element with id: "] |};
                  session := ∅ |}).
Proof.
  intros event h.
  assert (H1 : dataTransfer event !! "text/plain" = None) by reflexivity.
  assert (H2 : session mount !! "text/plain" = None) by reflexivity.
  split; [exact H1|].
  split; [exact (proj1 handleDrop_absent_id event h H1)|].
  split; [exact H2|].
  exact (proj2 handleDrop_absent_id mount H2).
Defined.

(** ** Who writes the hover flag *)

(** C10: [handleDragStart] and [enableDropping] return the heap they were
    given, so a drag-start or a drag-over delivered to any element leaves
    the hover flag as it was; an event that does change the flag is a
    drag-enter, a drag-leave or a drop on the drop zone, the three events
    whose listeners call [setDragOver]. *)
Theorem only_hover_and_drop_write_flag :
  (forall (event : DragEvent) (h : Heap), snd (handleDragStart event h) = h)
  /\ (forall (event : DragEvent) (h : Heap), snd (enableDropping event h) = h)
  /\ (forall (p : Page) (target : nat),
        dragOver (heap (fire DragStart target p)) = dragOver (heap p))
  /\ (forall (p : Page) (target : nat),
        dragOver (heap (fire DragOver target p)) = dragOver (heap p))
  /\ (forall (p : Page) (type : EventType) (target : nat),
        dragOver (heap (fire type target p)) <> dragOver (heap p) ->
        target = drop_zone
        /\ (type = DragEnter \/ type = DragLeave \/ type = Drop)).
Proof.
  split; [|split; [|split; [|split]]].
  - intros event h. reflexivity.
  - intros event h. reflexivity.
  - intros [[b c] s] target.
    destruct target as [|[|[|n]]], b; reflexivity.
  - intros [[b c] s] target.
    destruct target as [|[|[|n]]], b; reflexivity.
  - intros [[b c] s] type target Hchanged.
    destruct target as [|[|[|n]]]; [exfalso..| |exfalso].
    + destruct type, b; apply Hchanged; reflexivity.
    + destruct type, b; apply Hchanged; reflexivity.
    + split; [reflexivity|].
      destruct type; auto; exfalso; destruct b; apply Hchanged; reflexivity.
    + destruct type, b; apply Hchanged; reflexivity.
Qed.

Lemma only_hover_and_drop_write_flag_witness :
  dragOver (heap (fire DragEnter drop_zone mount)) <> dragOver (heap mount)
  /\ drop_zone = drop_zone
  /\ (DragEnter = DragEnter \/ DragEnter = DragLeave \/ DragEnter = Drop).
Proof.
  assert (Hchanged : dragOver (heap (fire DragEnter drop_zone mount))
                     <> dragOver (heap mount)) by discriminate.
  split; [exact Hchanged|].
  exact (proj2 (proj2 (proj2 (proj2 only_hover_and_drop_write_flag)))
           mount DragEnter drop_zone Hchanged).
Defined.

(** ** One step of the hover panel, field by field *)

Lemma fire_console_step type target p :
  console (heap (fire type target p))
  = console (heap p)
    ++ (if logs_line (type, target)
        then [drop_line (DataTransfer.getData "text" (session p))]
        else []).
Proof.
  destruct p as [[b c] s].
  destruct target as [|[|[|n]]], type, b; simpl;
    rewrite ?app_nil_r; reflexivity.
Qed.

Lemma fire_flag_step type target p :
  dragOver (heap (fire type target p))
  = if writes_flag (type, target)
    then match type with DragEnter => true | _ => false end
    else dragOver (heap p).
Proof.
  destruct p as [[b c] s].
  destruct target as [|[|[|n]]], type, b; reflexivity.
Qed.

Lemma fire_text_step type target p :
  DataTransfer.getData "text" (session (fire type target p))
  = match type, target with
    | DragStart, 0 => "d1"
    | DragStart, 1 => "d2"
    | _, _ => DataTransfer.getData "text" (session p)
    end.
Proof.
  destruct type;
    try (rewrite fire_session by discriminate;
         destruct target as [|[|n]]; reflexivity).
  destruct target as [|[|[|n]]].
  - change (fire DragStart 0 p) with (fire DragStart source_d1 p).
    rewrite (fire_DragStart_d1 p). apply getData_setData_text.
  - change (fire DragStart 1 p) with (fire DragStart source_d2 p).
    rewrite (fire_DragStart_d2 p). apply getData_setData_text.
  - destruct p as [[[] c] s]; reflexivity.
  - destruct p as [[[] c] s]; reflexivity.
Qed.

(** ** Sessions in any history *)

(** X1: whatever was logged and stored before, a drag-start on "d1"
    (resp. "d2") followed by any events other than drag-start and drop and
    then a drop on the drop zone appends exactly one line, carrying that
    identifier: the latest drag-start overwrites what an earlier one
    stored. *)
Theorem latest_drag_start_is_logged (p : Page) (inner : list (EventType * nat)) :
  Forall (fun e => is_inner_kind (fst e)) inner ->
  console (heap (run p
    ((DragStart, source_d1) :: inner ++ [(Drop, drop_zone)])))
  = console (heap p) ++ [drop_line "d1"]
  /\ console (heap (run p
       ((DragStart, source_d2) :: inner ++ [(Drop, drop_zone)])))
     = console (heap p) ++ [drop_line "d2"].
Proof.
  intros Hinner. split.
  - change (run p ((DragStart, source_d1) :: inner ++ [(Drop, drop_zone)]))
      with (run (fire DragStart source_d1 p) (inner ++ [(Drop, drop_zone)])).
    rewrite run_snoc, fire_console_step.
    destruct (run_inner inner Hinner (fire DragStart source_d1 p))
      as [-> ->].
    rewrite fire_text_step, fire_console_step. simpl.
    rewrite app_nil_r. reflexivity.
  - change (run p ((DragStart, source_d2) :: inner ++ [(Drop, drop_zone)]))
      with (run (fire DragStart source_d2 p) (inner ++ [(Drop, drop_zone)])).
    rewrite run_snoc, fire_console_step.
    destruct (run_inner inner Hinner (fire DragStart source_d2 p))
      as [-> ->].
    rewrite fire_text_step, fire_console_step. simpl.
    rewrite app_nil_r. reflexivity.
Qed.

Lemma latest_drag_start_is_logged_witness :
  let p := run mount [(DragStart, source_d1); (Drop, drop_zone);
                      (DragStart, source_d1)] in
  console (heap (run p
    [(DragStart, source_d2); (DragEnter, drop_zone); (DragOver, drop_zone);
     (Drop, drop_zone)]))
  = [drop_line "d1"; drop_line "d2"].
Proof.
  intros p.
  apply (proj2 (latest_drag_start_is_logged p
                  [(DragEnter, drop_zone); (DragOver, drop_zone)]
                  ltac:(repeat constructor; simpl; discriminate))).
Defined.

(** X2: the console only grows, and by exactly one line for each drop
    delivered to the drop zone: no other event logs and no line is ever
    removed or rewritten. *)
Theorem one_line_per_drop (p : Page) (events : list (EventType * nat)) :
  console (heap p) `prefix_of` console (heap (run p events))
  /\ length (console (heap (run p events)))
     = length (console (heap p)) + length (List.filter logs_line events).
Proof.
  revert p. induction events as [|[type target] events IH]; intros p.
  - simpl. split; [reflexivity | lia].
  - change (run p ((type, target) :: events))
      with (run (fire type target p) events).
    destruct (IH (fire type target p)) as [Hpre Hlen].
    rewrite fire_console_step in Hpre, Hlen.
    split.
    + etransitivity; [|exact Hpre]. apply prefix_app_r. reflexivity.
    + rewrite Hlen, length_app. cbn [List.filter].
      destruct (logs_line (type, target)); cbn [length]; lia.
Qed.

(** ** What the listeners never do *)

(** X4: of all the listeners of the panel only [enableDropping] calls
    [preventDefault]: an event comes back from its listener with the
    default suppressed exactly when it was a drag-over on the drop zone.
    In particular [handleDrop] leaves the default action of the drop in
    place. *)
Theorem only_drag_over_prevents_default
    (type : EventType) (target : nat) (p p' : Page) (event : DragEvent) :
  dispatch type target p = Some (event, p') ->
  (defaultPrevented event = true <-> type = DragOver /\ target = drop_zone).
Proof.
  intros Hd. destruct p as [[b c] s].
  destruct target as [|[|[|n]]], type, b; simpl in Hd;
    try discriminate Hd; injection Hd as <- _; simpl;
    (split; [try discriminate; auto | intros [? ?]; try discriminate; auto]).
Qed.

Lemma only_drag_over_prevents_default_witness :
  exists event p',
    dispatch Drop drop_zone mount = Some (event, p')
    /\ defaultPrevented event <> true.
Proof.
  eexists _, _. split; [reflexivity|].
  intros Hprevented.
  destruct (proj1 (only_drag_over_prevents_default
                     Drop drop_zone mount _ _ eq_refl) Hprevented)
    as [Hkind _].
  discriminate Hkind.
Defined.

(** X5: an event has a listener exactly when it is a drag-start on one of
    the two sources or any other kind on the drop zone, whatever the hover
    flag; every other event (a drop on a source, a drag-start on the drop
    zone, a position past the markup) leaves the page untouched. *)
Theorem unheard_events_are_ignored
    (type : EventType) (target : nat) (p : Page) :
  (is_Some (dispatch type target p) <-> is_heard type target)
  /\ (~ is_heard type target -> fire type target p = p).
Proof.
  assert (Hiff : is_Some (dispatch type target p) <-> is_heard type target).
  { destruct p as [[b c] s]. unfold is_heard, source_d1, source_d2, drop_zone.
    destruct target as [|[|[|n]]], type, b; simpl;
      (split;
       [ intros [x Hx]; try discriminate Hx;
         first [ left; split; [reflexivity | auto; fail]
               | right; split; [discriminate | reflexivity] ]
       | intros [[Ht Hpos] | [Ht Hpos]];
         try discriminate Ht; try congruence;
         try (destruct Hpos; discriminate);
         eexists; reflexivity ]). }
  split; [exact Hiff|].
  intros Hunheard. unfold fire.
  destruct (dispatch type target p) as [r|] eqn:Hd; [|reflexivity].
  exfalso. apply Hunheard, Hiff. eexists; reflexivity.
Qed.

Lemma unheard_events_are_ignored_witness :
  let p := run mount [(DragStart, source_d1); (DragEnter, drop_zone)] in
  ~ is_heard Drop source_d2 /\ fire Drop source_d2 p = p.
Proof.
  intros p.
  assert (Hunheard : ~ is_heard Drop source_d2).
  { intros [[Hkind _] | [_ Hpos]]; discriminate. }
  split; [exact Hunheard|].
  exact (proj2 (unheard_events_are_ignored Drop source_d2 p) Hunheard).
Defined.

(** ** The hover flag after any run *)

(** X6: after any run of events on any elements, drops included, the hover
    flag is decided by the latest drag-enter, drag-leave or drop on the
    drop zone: true if that was a drag-enter, false otherwise, and the
    flag the run started with if there was none.  A highlight raised by a
    drag-enter therefore stays until a later leave or drop on the drop
    zone, however many other events follow. *)
Theorem hover_flag_after_any_run (p : Page) (events : list (EventType * nat)) :
  dragOver (heap (run p events))
  = match last (List.filter writes_flag events) with
    | Some (DragEnter, _) => true
    | Some _ => false
    | None => dragOver (heap p)
    end.
Proof.
  induction events as [|[type target] events IH] using rev_ind.
  - reflexivity.
  - rewrite run_snoc, fire_flag_step, List.filter_app. cbn [List.filter].
    destruct (writes_flag (type, target)) eqn:Hw.
    + rewrite last_snoc. destruct type; reflexivity.
    + rewrite app_nil_r. exact IH.
Qed.

(** ** The minimal panel and the hover panel side by side *)

Lemma minimal_fire_step type target p :
  session (fire type target p) = session (minimal_fire type target p)
  /\ console (heap (fire type target p))
     = console (heap (minimal_fire type target p))
  /\ dragOver (heap (minimal_fire type target p)) = dragOver (heap p).
Proof.
  destruct p as [[b c] s].
  destruct target as [|[|[|n]]], type, b; repeat split.
Qed.

(** The step of either panel looks at the page only through its store and
    its console. *)
Lemma minimal_fire_agree type target p q :
  session p = session q -> console (heap p) = console (heap q) ->
  session (minimal_fire type target p) = session (minimal_fire type target q)
  /\ console (heap (minimal_fire type target p))
     = console (heap (minimal_fire type target q)).
Proof.
  destruct p as [[b c] s], q as [[b' c'] s']. simpl. intros -> ->.
  destruct target as [|[|[|n]]], type; split; reflexivity.
Qed.

(** X7: the highlight is the only difference between the two examples.
    On the same events the hover panel and the minimal panel of the README
    end with the same transfer store and the same console, line for line,
    and the minimal panel never touches the hover flag. *)
Theorem hover_panel_logs_as_minimal
    (p : Page) (events : list (EventType * nat)) :
  session (run p events) = session (minimal_run p events)
  /\ console (heap (run p events)) = console (heap (minimal_run p events))
  /\ dragOver (heap (minimal_run p events)) = dragOver (heap p).
Proof.
  assert (Hsim : forall es p q,
             session p = session q ->
             console (heap p) = console (heap q) ->
             session (run p es) = session (minimal_run q es)
             /\ console (heap (run p es)) = console (heap (minimal_run q es))).
  { induction es as [|[type target] es IH]; intros p1 q Hs Hc.
    - split; assumption.
    - change (run p1 ((type, target) :: es))
        with (run (fire type target p1) es).
      change (minimal_run q ((type, target) :: es))
        with (minimal_run (minimal_fire type target q) es).
      destruct (minimal_fire_step type target p1) as (Hs1 & Hc1 & _).
      destruct (minimal_fire_agree type target p1 q Hs Hc) as [Hs2 Hc2].
      apply IH; congruence. }
  destruct (Hsim events p p eq_refl eq_refl) as [Hs Hc].
  split; [exact Hs|]. split; [exact Hc|].
  clear. revert p.
  induction events as [|[type target] events IH]; intros p.
  - reflexivity.
  - change (minimal_run p ((type, target) :: events))
      with (minimal_run (minimal_fire type target p) events).
    rewrite IH. apply minimal_fire_step.
Qed.

(** ** Inside the page shell *)

Lemma app_fire_hover type target p :
  app_fire type (hover_panel, target) p = fire type target p.
Proof. destruct p as [[[] c] s]; reflexivity. Qed.

Lemma app_fire_minimal type target p :
  app_fire type (minimal_panel, target) p = minimal_fire type target p.
Proof. destruct p as [[[] c] s]; reflexivity. Qed.

Lemma app_fire_elsewhere type child target p :
  child <> minimal_panel -> child <> hover_panel ->
  app_fire type (child, target) p = p.
Proof.
  intros Hm Hh. unfold minimal_panel, hover_panel in *.
  destruct p as [[b c] s].
  destruct child as [|[|[|[|n]]]]; try congruence;
    destruct target; reflexivity.
Qed.

(** X8: mounted under [App], below the headings and the minimal panel,
    the hover panel runs as it does alone: a run of events addressed to
    its elements ends in the same page. *)
Theorem hover_panel_runs_alone_in_app
    (p : Page) (events : list (EventType * nat)) :
  app_run p (in_hover_panel events) = run p events.
Proof.
  revert p. induction events as [|[type target] events IH]; intros p.
  - reflexivity.
  - change (app_run p (in_hover_panel ((type, target) :: events)))
      with (app_run (app_fire type (hover_panel, target) p)
              (in_hover_panel events)).
    rewrite app_fire_hover. apply IH.
Qed.



(** X10: the sources of the two panels carry the same identifiers, so a
    drag-start stores the same thing whichever panel it starts in: the
    page after it is the same, and no later drop can tell the two panels
    apart. *)
Theorem drag_start_same_in_both_panels (target : nat) (p : Page) :
  app_fire DragStart (minimal_panel, target) p
  = app_fire DragStart (hover_panel, target) p.
Proof.
  destruct p as [[b c] s].
  destruct target as [|[|[|n]]], b; reflexivity.
Qed.

Lemma app_fire_cases type at_ p :
  app_fire type at_ p = fire type (snd at_) p
  \/ app_fire type at_ p = minimal_fire type (snd at_) p
  \/ app_fire type at_ p = p.
Proof.
  destruct at_ as [child target]. simpl.
  destruct (decide (child = hover_panel)) as [-> | Hh].
  { left. apply app_fire_hover. }
  destruct (decide (child = minimal_panel)) as [-> | Hm].
  { right; left. apply app_fire_minimal. }
  right; right. apply app_fire_elsewhere; assumption.
Qed.

Lemma app_fire_inner type at_ p :
  is_inner_kind type ->
  session (app_fire type at_ p) = session p
  /\ console (heap (app_fire type at_ p)) = console (heap p).
Proof.
  intros [Hs Hd].
  destruct (minimal_fire_step type (snd at_) p) as (Hms & Hmc & _).
  destruct (app_fire_cases type at_ p) as [-> | [-> | ->]].
  - split; [apply fire_session | apply fire_console]; assumption.
  - rewrite <- Hms, <- Hmc.
    split; [apply fire_session | apply fire_console]; assumption.
  - split; reflexivity.
Qed.

Lemma app_run_app p es1 es2 :
  app_run p (es1 ++ es2) = app_run (app_run p es1) es2.
Proof.
  revert p. induction es1 as [|[type at_] es1 IH]; intros p; simpl.
  - reflexivity.
  - apply IH.
Qed.

Lemma app_run_inner es :
  Forall (fun e => is_inner_kind (fst e)) es ->
  forall p,
    session (app_run p es) = session p
    /\ console (heap (app_run p es)) = console (heap p).
Proof.
  induction 1 as [|[type at_] es Hkind _ IH]; intros p; simpl.
  - split; reflexivity.
  - destruct (IH (app_fire type at_ p)) as [-> ->].
    apply app_fire_inner, Hkind.
Qed.

(** The drag-start listeners of the two panels are the same callback on
    elements with the same identifiers. *)
Lemma minimal_fire_DragStart target p :
  minimal_fire DragStart target p = fire DragStart target p.
Proof.
  destruct p as [[b c] s].
  destruct target as [|[|[|n]]], b; reflexivity.
Qed.

(** A drop on the drop target of either panel logs the stored identifier. *)
Lemma app_fire_drop_console panel p :
  panel = minimal_panel \/ panel = hover_panel ->
  console (heap (app_fire Drop (panel, drop_zone) p))
  = console (heap p) ++ [drop_line (DataTransfer.getData "text" (session p))].
Proof.
  intros [-> | ->].
  - rewrite app_fire_minimal.
    destruct (minimal_fire_step Drop drop_zone p) as (_ & <- & _).
    apply fire_console_step.
  - rewrite app_fire_hover. apply fire_console_step.
Qed.

(** X11: the transfer store belongs to the drag, not to a panel.  In the
    page, a drag-start on the source "d1" (resp. "d2") of either panel,
    any events other than drag-start and drop anywhere, and then a drop on
    the drop target of either panel append exactly one line with that
    identifier, also when the drag crosses from one panel to the other. *)
Theorem drop_across_panels
    (p : Page) (from to : nat) (inner : list (EventType * Address)) :
  from = minimal_panel \/ from = hover_panel ->
  to = minimal_panel \/ to = hover_panel ->
  Forall (fun e => is_inner_kind (fst e)) inner ->
  console (heap (app_run p
    ((DragStart, (from, source_d1)) :: inner ++ [(Drop, (to, drop_zone))])))
  = console (heap p) ++ [drop_line "d1"]
  /\ console (heap (app_run p
       ((DragStart, (from, source_d2)) :: inner ++ [(Drop, (to, drop_zone))])))
     = console (heap p) ++ [drop_line "d2"].
Proof.
  intros Hfrom Hto Hinner.
  assert (Hstart : forall src,
             app_fire DragStart (from, src) p = fire DragStart src p).
  { intros src. destruct Hfrom as [-> | ->].
    - rewrite app_fire_minimal. apply minimal_fire_DragStart.
    - apply app_fire_hover. }
  assert (Hgo : forall src,
             console (heap (app_run p
               ((DragStart, (from, src)) :: inner ++ [(Drop, (to, drop_zone))])))
             = console (heap (fire DragStart src p))
               ++ [drop_line (DataTransfer.getData "text"
                                (session (fire DragStart src p)))]).
  { intros src.
    change (app_run p
              ((DragStart, (from, src)) :: inner ++ [(Drop, (to, drop_zone))]))
      with (app_run (app_fire DragStart (from, src) p)
              (inner ++ [(Drop, (to, drop_zone))])).
    rewrite app_run_app, Hstart.
    change (app_run (app_run (fire DragStart src p) inner)
              [(Drop, (to, drop_zone))])
      with (app_fire Drop (to, drop_zone)
              (app_run (fire DragStart src p) inner)).
    rewrite (app_fire_drop_console to _ Hto).
    destruct (app_run_inner inner Hinner (fire DragStart src p)) as [-> ->].
    reflexivity. }
  split.
  - rewrite Hgo, fire_text_step, fire_console_step. simpl.
    rewrite app_nil_r. reflexivity.
  - rewrite Hgo, fire_text_step, fire_console_step. simpl.
    rewrite app_nil_r. reflexivity.
Qed.

Lemma drop_across_panels_witness :
  console (heap (app_run mount
    [(DragStart, (minimal_panel, source_d2));
     (DragEnter, (hover_panel, drop_zone));
     (DragOver, (hover_panel, drop_zone));
     (Drop, (hover_panel, drop_zone))]))
  = [drop_line "d2"]
  /\ console (heap (app_run mount
       [(DragStart, (hover_panel, source_d1));
        (DragOver, (minimal_panel, drop_zone));
        (Drop, (minimal_panel, drop_zone))]))
     = [drop_line "d1"].
Proof.
  split.
  - apply (proj2 (drop_across_panels mount minimal_panel hover_panel
                    [(DragEnter, (hover_panel, drop_zone));
                     (DragOver, (hover_panel, drop_zone))]
                    (or_introl eq_refl) (or_intror eq_refl)
                    ltac:(repeat constructor; simpl; discriminate))).
  - apply (proj1 (drop_across_panels mount hover_panel minimal_panel
                    [(DragOver, (minimal_panel, drop_zone))]
                    (or_intror eq_refl) (or_introl eq_refl)
                    ltac:(repeat constructor; simpl; discriminate))).
Defined.
